(** * Hub registration manager of open-cluster-management

    Shallow embedding of [pkg/registration/hub/manager.go]
    ([HubManagerOptions.RunControllerManager]) together with the parts of
    the hub registration core it wires up (CSR approval chain, bootstrap and
    renewal reconcilers, lease/liveness controller), the latter modelled from
    the spec where their code is not part of this source tree. *)

From Stdlib Require Import String List Bool Arith ZArith Lia.
From Stdlib Require Import Floats.SpecFloat.
Import ListNotations.
Open Scope string_scope.

(** ** Errors and the startup monad *)

(** A Go [error] is represented by its message. *)
Definition error := string.

Inductive result (A : Type) : Type :=
| Ok (a : A)
| Err (e : error).
Arguments Ok {A} a.
Arguments Err {A} e.

(** [errors.Wrapf(err, msg)]: the message of the wrapped error is
    [msg + ": " + err.Error()]. *)
Definition Wrapf (err : error) (msg : string) : error :=
  msg ++ ": " ++ err.

(** Startup runs in an error monad whose state counts the calls made to
    the CSR API discovery helper [helpers.IsCSRSupported]: the [n]-th call
    is answered by the cluster's [n]-th response, so a retry would observe
    a fresh answer. *)
Definition M (A : Type) : Type := nat -> result A * nat.

Definition ret {A} (a : A) : M A := fun n => (Ok a, n).
Definition fail {A} (e : error) : M A := fun n => (Err e, n).
Definition bind {A B} (m : M A) (k : A -> M B) : M B :=
  fun n => match m n with
           | (Ok a, n') => k a n'
           | (Err e, n') => (Err e, n')
           end.

Notation "x <- m ;; k" := (bind m (fun x => k))
  (at level 61, m at next level, right associativity).

(** ** Feature gates and options *)

(** The gates of [features.DefaultHubRegistrationMutableFeatureGate] read by
    [RunControllerManager]. *)
Record FeatureGate := {
  ManagedClusterAutoApproval : bool;
  V1beta1CSRAPICompatibility : bool;
  DefaultClusterSet : bool
}.

Record HubManagerOptions := {
  ClusterAutoApprovalUsers : list string
}.

(** ** Controllers built by the manager *)

(** The two generic instantiations of [csr.NewCSRApprovingController]:
    [certv1.CertificateSigningRequest] (the Current schema) and
    [certv1beta1.CertificateSigningRequest] (the Legacy schema). *)
Inductive CSRVersion := CertV1 | CertV1beta1.

(** [csr.Reconciler] values built by the manager. *)
Inductive Reconciler :=
| CSRRenewalReconciler
| CSRBootstrapReconciler (approvalUsers : list string).

(** [csr.NewCSRApprovingController[T](informer, lister, approver,
    reconcilers, recorder)]: the type parameter, informer, lister and
    approver all follow the CSR API version; the reconcilers are passed in. *)
Record CSRApprovingController := {
  csrVersion : CSRVersion;
  csrReconcilers : list Reconciler
}.

Definition NewCSRApprovingController (v : CSRVersion) (rs : list Reconciler)
  : CSRApprovingController :=
  {| csrVersion := v; csrReconcilers := rs |}.

Inductive ControllerName :=
| ManagedClusterController
| TaintController
| CSRController
| LeaseController
| RbacFinalizerController
| ManagedClusterSetController
| ManagedClusterSetBindingController
| ClusterroleController
| AddOnHealthCheckController
| AddOnFeatureDiscoveryController
| DefaultManagedClusterSetController
| GlobalManagedClusterSetController.

Definition ControllerName_eqb (a b : ControllerName) : bool :=
  match a, b with
  | ManagedClusterController, ManagedClusterController
  | TaintController, TaintController
  | CSRController, CSRController
  | LeaseController, LeaseController
  | RbacFinalizerController, RbacFinalizerController
  | ManagedClusterSetController, ManagedClusterSetController
  | ManagedClusterSetBindingController, ManagedClusterSetBindingController
  | ClusterroleController, ClusterroleController
  | AddOnHealthCheckController, AddOnHealthCheckController
  | AddOnFeatureDiscoveryController, AddOnFeatureDiscoveryController
  | DefaultManagedClusterSetController, DefaultManagedClusterSetController
  | GlobalManagedClusterSetController, GlobalManagedClusterSetController => true
  | _, _ => false
  end.

(** The state of the hub once [RunControllerManager] has started its
    controllers and blocks on [<-ctx.Done()]: each [go c.Run(ctx, w)]
    records [(c, w)], in the order of the source; the CSR approving
    controller that was built is kept with it. *)
Record Hub := {
  started : list (ControllerName * nat);
  csrController : CSRApprovingController
}.

(** ** The environment of one startup *)

Record Env := {
  gates : FeatureGate;
  (** [kubernetes.NewForConfig], [clusterv1client.NewForConfig],
      [workv1client.NewForConfig], [addonclient.NewForConfig]:
      [Some err] when the constructor fails. *)
  newKubeClientErr : option error;
  newClusterClientErr : option error;
  newWorkClientErr : option error;
  newAddOnClientErr : option error;
  (** the answer of the cluster to the [n]-th discovery call:
      [(v1CSRSupported, v1beta1CSRSupported)] or an error *)
  csrDiscovery : nat -> result (bool * bool)
}.

(** [if err != nil { return err }] after a client constructor. *)
Definition newForConfig (r : option error) : M unit :=
  match r with
  | Some e => fail e
  | None => ret tt
  end.

(** One call of [helpers.IsCSRSupported(kubeClient)]. *)
Definition IsCSRSupported (env : Env) : M (result (bool * bool)) :=
  fun n => (Ok (csrDiscovery env n), S n).

(** Lines 108-117: the reconciler list. *)
Definition csrReconciles (m : HubManagerOptions) (g : FeatureGate)
  : list Reconciler :=
  let rs := [CSRRenewalReconciler] in
  if ManagedClusterAutoApproval g
  then rs ++ [CSRBootstrapReconciler (ClusterAutoApprovalUsers m)]
  else rs.

(** Lines 119-145: choice of the CSR approving controller. *)
Definition buildCSRController (env : Env) (rs : list Reconciler)
  : M CSRApprovingController :=
  c <- (if V1beta1CSRAPICompatibility (gates env) then
          r <- IsCSRSupported env ;;
          match r with
          | Err e => fail (Wrapf e "failed CSR api discovery")
          | Ok (v1CSRSupported, v1beta1CSRSupported) =>
              if negb v1CSRSupported && v1beta1CSRSupported
              then ret (Some (NewCSRApprovingController CertV1beta1 rs))
              else ret None
          end
        else ret None) ;;
  match c with
  | Some c => ret c
  | None => ret (NewCSRApprovingController CertV1 rs)
  end.

(** Lines 219-232: the [go c.Run(ctx, 1)] statements. *)
Definition runControllers (g : FeatureGate) : list (ControllerName * nat) :=
  [(ManagedClusterController, 1);
   (TaintController, 1);
   (CSRController, 1);
   (LeaseController, 1);
   (RbacFinalizerController, 1);
   (ManagedClusterSetController, 1);
   (ManagedClusterSetBindingController, 1);
   (ClusterroleController, 1);
   (AddOnHealthCheckController, 1);
   (AddOnFeatureDiscoveryController, 1)]
  ++ (if DefaultClusterSet g
      then [(DefaultManagedClusterSetController, 1);
            (GlobalManagedClusterSetController, 1)]
      else []).

(** [RunControllerManager]: [Ok hub] stands for the run that started the
    controllers of [hub], then waits for the context and returns [nil];
    [Err e] for a run that returned [e] before starting anything. *)
Definition RunControllerManager (m : HubManagerOptions) (env : Env)
  : M Hub :=
  _ <- newForConfig (newKubeClientErr env) ;;
  _ <- newForConfig (newClusterClientErr env) ;;
  _ <- newForConfig (newWorkClientErr env) ;;
  _ <- newForConfig (newAddOnClientErr env) ;;
  let rs := csrReconciles m (gates env) in
  c <- buildCSRController env rs ;;
  ret {| started := runControllers (gates env); csrController := c |}.

(** A startup from a fresh process: no discovery call made yet. *)
Definition startup (m : HubManagerOptions) (env : Env) : result Hub * nat :=
  RunControllerManager m env 0.

Definition clientsOk (env : Env) : Prop :=
  newKubeClientErr env = None /\ newClusterClientErr env = None /\
  newWorkClientErr env = None /\ newAddOnClientErr env = None.

(** ** Registration requests and the approval chain *)

Inductive KeyUsage := ClientAuth | DigitalSignature | KeyEncipherment | ServerAuth.

Definition KeyUsage_eqb (a b : KeyUsage) : bool :=
  match a, b with
  | ClientAuth, ClientAuth | DigitalSignature, DigitalSignature
  | KeyEncipherment, KeyEncipherment | ServerAuth, ServerAuth => true
  | _, _ => false
  end.

Inductive DecisionState := Pending | Approved | Denied.
Inductive SchemaVariant := Current | Legacy.

Record RegistrationRequest := {
  requester : string;
  usages : list KeyUsage;
  organizations : list string;
  payload : list nat;
  decision : DecisionState;
  variant : SchemaVariant
}.

Inductive Outcome := Approve | Deny | NoOpinion.

Fixpoint list_eqb {A} (eqb : A -> A -> bool) (l1 l2 : list A) : bool :=
  match l1, l2 with
  | [], [] => true
  | x :: l1, y :: l2 => eqb x y && list_eqb eqb l1 l2
  | _, _ => false
  end.

Definition memberb (s : string) (l : list string) : bool :=
  existsb (String.eqb s) l.

Definition clusterOrgPrefix := "system:open-cluster-management:".

(** Modelled from the spec (the [csr] package is not in this tree): the
    expected spoke-bootstrap profile, "requested organization/usages exactly
    match": usages exactly [clientAuth] and a single organization
    [system:open-cluster-management:<cluster>] with a non-empty cluster
    name. *)
Definition bootstrapProfileMatches (req : RegistrationRequest) : bool :=
  list_eqb KeyUsage_eqb (usages req) [ClientAuth] &&
  match organizations req with
  | [o] => String.prefix clusterOrgPrefix o &&
           Nat.ltb (String.length clusterOrgPrefix) (String.length o)
  | _ => false
  end.

(** Modelled from the spec: the Bootstrap Auto-Approval Policy
    ([csr.NewCSRBootstrapReconciler]): Approve iff the requester is in the
    allow-list and the profile matches exactly; otherwise NoOpinion. *)
Definition bootstrapReconcile (approvalUsers : list string)
  (req : RegistrationRequest) : Outcome :=
  if memberb (requester req) approvalUsers && bootstrapProfileMatches req
  then Approve else NoOpinion.

(** The profile granted to an accepted cluster, keyed by the identity of
    its agent. *)
Definition GrantedProfiles := list (string * (list string * list KeyUsage)).

Fixpoint lookupGrant (g : GrantedProfiles) (who : string)
  : option (list string * list KeyUsage) :=
  match g with
  | [] => None
  | (k, p) :: g => if String.eqb k who then Some p else lookupGrant g who
  end.

(** Modelled from the spec: the Renewal Approval Policy
    ([csr.NewCSRRenewalReconciler]): Approve when the requester has a
    granted profile that the request matches exactly; otherwise
    NoOpinion, never Deny. *)
Definition renewalReconcile (g : GrantedProfiles) (req : RegistrationRequest)
  : Outcome :=
  match lookupGrant g (requester req) with
  | Some (orgs, us) =>
      if list_eqb String.eqb (organizations req) orgs &&
         list_eqb KeyUsage_eqb (usages req) us
      then Approve else NoOpinion
  | None => NoOpinion
  end.

Definition evalReconciler (g : GrantedProfiles) (r : Reconciler)
  (req : RegistrationRequest) : Outcome :=
  match r with
  | CSRRenewalReconciler => renewalReconcile g req
  | CSRBootstrapReconciler users => bootstrapReconcile users req
  end.

(** Modelled from the spec: the Approval Chain Dispatcher runs the fixed
    reconciler list in order and stops at the first Approve or Deny. *)
Fixpoint runChain (g : GrantedProfiles) (rs : list Reconciler)
  (req : RegistrationRequest) : Outcome :=
  match rs with
  | [] => NoOpinion
  | r :: rs =>
      match evalReconciler g r req with
      | NoOpinion => runChain g rs req
      | o => o
      end
  end.

Definition setDecision (req : RegistrationRequest) (d : DecisionState)
  : RegistrationRequest :=
  {| requester := requester req; usages := usages req;
     organizations := organizations req; payload := payload req;
     decision := d; variant := variant req |}.

(** Modelled from the spec: one reconciliation of a request by the CSR
    approving controller.  The write is conditional on the current decision
    state: a terminal request is left alone.  Returns the request and the
    decision written, if any. *)
Definition reconcileRequest (g : GrantedProfiles) (rs : list Reconciler)
  (req : RegistrationRequest) : RegistrationRequest * option DecisionState :=
  match decision req with
  | Approved | Denied => (req, None)
  | Pending =>
      match runChain g rs req with
      | Approve => (setDecision req Approved, Some Approved)
      | Deny => (setDecision req Denied, Some Denied)
      | NoOpinion => (req, None)
      end
  end.

Definition isPending (d : DecisionState) : bool :=
  match d with Pending => true | _ => false end.

(** Successive reconciliations of one request (after watch events,
    resyncs, retries), each against the granted profiles current at that
    time.  Returns the final request, the number of writes and the number
    of transitions out of Pending. *)
Fixpoint reconcileTrace (rs : list Reconciler) (gs : list GrantedProfiles)
  (req : RegistrationRequest) : RegistrationRequest * nat * nat :=
  match gs with
  | [] => (req, 0, 0)
  | g :: gs =>
      let (req', w) := reconcileRequest g rs req in
      let '(fin, writes, leaves) := reconcileTrace rs gs req' in
      (fin,
       (match w with Some _ => 1 | None => 0 end) + writes,
       (if isPending (decision req) && negb (isPending (decision req'))
        then 1 else 0) + leaves)
  end.

(** ** Heartbeat / taint state machine *)

Inductive Availability := Unknown | Available | Unreachable.

Record SpokeCluster := {
  availability : Availability;
  taints : list string
}.

Definition UnreachableTaint := "cluster.open-cluster-management.io/unreachable".

Definition addTaint (t : string) (ts : list string) : list string :=
  if memberb t ts then ts else ts ++ [t].

Definition removeTaint (t : string) (ts : list string) : list string :=
  filter (fun x => negb (String.eqb t x)) ts.

(** Modelled from the spec: the staleness threshold T, five times the
    heartbeat interval R. *)
Definition leaseDurationTimes := 5.
Definition staleThreshold (R : nat) : nat := leaseDurationTimes * R.

(** Modelled from the spec (the [lease] package is not in this tree): one
    evaluation of a cluster at heartbeat age [age] against threshold [T]. *)
Definition leaseStep (T age : nat) (c : SpokeCluster) : SpokeCluster :=
  if Nat.ltb T age then
    match availability c with
    | Unreachable => c
    | _ => {| availability := Unreachable;
              taints := addTaint UnreachableTaint (taints c) |}
    end
  else
    match availability c with
    | Unreachable => {| availability := Available;
                        taints := removeTaint UnreachableTaint (taints c) |}
    | Unknown => {| availability := Available; taints := taints c |}
    | Available => c
    end.

(** The availability after each of successive evaluations. *)
Fixpoint leaseTrace (T : nat) (ages : list nat) (c : SpokeCluster)
  : list Availability :=
  match ages with
  | [] => []
  | a :: ages => let c' := leaseStep T a c in
                 availability c' :: leaseTrace T ages c'
  end.

(** ** Worker loop of a controller *)

(** The controllers are library-go [factory] controllers: [Run(ctx, w)]
    starts [w] workers, each taking one key from the work queue, processing
    it, and marking it done before taking the next one; a key being
    processed is not handed out again until it is done. *)
Record Pool := {
  queue : list string;
  inflight : list string
}.

Inductive poolStep (workers : nat) : Pool -> Pool -> Prop :=
| pool_enqueue p k :
    poolStep workers p {| queue := queue p ++ [k]; inflight := inflight p |}
| pool_take p k q :
    queue p = k :: q ->
    length (inflight p) < workers ->
    ~ In k (inflight p) ->
    poolStep workers p {| queue := q; inflight := k :: inflight p |}
| pool_done p k :
    In k (inflight p) ->
    poolStep workers p
      {| queue := queue p;
         inflight := filter (fun x => negb (String.eqb k x)) (inflight p) |}.

Inductive poolReachable (workers : nat) : Pool -> Prop :=
| reach_init : poolReachable workers {| queue := []; inflight := [] |}
| reach_step p p' :
    poolReachable workers p -> poolStep workers p p' ->
    poolReachable workers p'.

(** ** Options and client configuration *)

(** [NewHubManagerOptions]: [&HubManagerOptions{}], whose
    [ClusterAutoApprovalUsers] is the nil slice. *)
Definition NewHubManagerOptions : HubManagerOptions :=
  {| ClusterAutoApprovalUsers := [] |}.

(** The fields of [rest.Config] read and written by [RunControllerManager]:
    [QPS] is a Go [float32], [Burst] an [int]. *)
Record RestConfig := {
  QPS : spec_float;
  Burst : Z
}.

(** Go's [x == 0.0] on a float: true on both zeros, false on NaN, the
    infinities and every finite value (whose mantissa is positive). *)
Definition floatIsZero (x : spec_float) : bool :=
  match x with
  | S754_zero _ => true
  | _ => false
  end.

(** The float constant [100.0] (25 * 2^2). *)
Definition float100 : spec_float := S754_finite false 25 2.

(** Lines 64-68: [kubeConfig := rest.CopyConfig(controllerContext.KubeConfig)]
    followed by the QPS/Burst defaulting. *)
Definition defaultKubeConfig (c : RestConfig) : RestConfig :=
  if floatIsZero (QPS c)
  then {| QPS := float100; Burst := 200%Z |}
  else c.

(** The same startup environment with another answer to the discovery
    calls. *)
Definition withDiscovery (env : Env) (p : nat -> result (bool * bool)) : Env :=
  {| gates := gates env;
     newKubeClientErr := newKubeClientErr env;
     newClusterClientErr := newClusterClientErr env;
     newWorkClientErr := newWorkClientErr env;
     newAddOnClientErr := newAddOnClientErr env;
     csrDiscovery := p |}.

(** ** Concrete configurations *)

Definition gatesOf (autoApproval compat defaultSet : bool) : FeatureGate :=
  {| ManagedClusterAutoApproval := autoApproval;
     V1beta1CSRAPICompatibility := compat;
     DefaultClusterSet := defaultSet |}.

Definition envOf (g : FeatureGate) (probe : nat -> result (bool * bool)) : Env :=
  {| gates := g; newKubeClientErr := None; newClusterClientErr := None;
     newWorkClientErr := None; newAddOnClientErr := None;
     csrDiscovery := probe |}.

Definition bootstrapOpts : HubManagerOptions :=
  {| ClusterAutoApprovalUsers := ["bootstrap-sa"] |}.

Definition spokeRequest (who : string) : RegistrationRequest :=
  {| requester := who; usages := [ClientAuth];
     organizations := ["system:open-cluster-management:cluster1"];
     payload := []; decision := Pending; variant := Current |}.

Example startup_legacy_only :
  startup bootstrapOpts (envOf (gatesOf true true false) (fun _ => Ok (false, true)))
  = (Ok {| started := runControllers (gatesOf true true false);
           csrController := NewCSRApprovingController CertV1beta1
             [CSRRenewalReconciler; CSRBootstrapReconciler ["bootstrap-sa"]] |}, 1).
Proof. reflexivity. Qed.

Example startup_discovery_error :
  startup bootstrapOpts (envOf (gatesOf false true false) (fun _ => Err "timeout"))
  = (Err "failed CSR api discovery: timeout", 1).
Proof. reflexivity. Qed.

Example spec_scenario_bootstrap :
  let rs := csrReconciles bootstrapOpts (gatesOf true false false) in
  fst (reconcileRequest [] rs (spokeRequest "bootstrap-sa"))
    = setDecision (spokeRequest "bootstrap-sa") Approved /\
  reconcileRequest [] rs (spokeRequest "random-user")
    = (spokeRequest "random-user", None).
Proof. split; reflexivity. Qed.

Example lease_sample :
  leaseTrace (staleThreshold 60) [30; 90; 150; 210; 270; 330; 20]
    {| availability := Unknown; taints := [] |}
  = [Available; Available; Available; Available; Available; Unreachable; Available].
Proof. reflexivity. Qed.

(** ** Equations of the startup *)

(** The first failing client constructor, in the order of the source. *)
Definition clientErr (env : Env) : option error :=
  match newKubeClientErr env with
  | Some e => Some e
  | None =>
    match newClusterClientErr env with
    | Some e => Some e
    | None =>
      match newWorkClientErr env with
      | Some e => Some e
      | None => newAddOnClientErr env
      end
    end
  end.

Lemma clientErr_ok (env : Env) : clientsOk env -> clientErr env = None.
Proof.
  intros (H1 & H2 & H3 & H4). unfold clientErr. now rewrite H1, H2, H3, H4.
Qed.

Lemma buildCSRController_eq (env : Env) (rs : list Reconciler) :
  buildCSRController env rs 0 =
  if V1beta1CSRAPICompatibility (gates env) then
    match csrDiscovery env 0 with
    | Err e => (Err (Wrapf e "failed CSR api discovery"), 1)
    | Ok (v1, v1beta1) =>
        (Ok (NewCSRApprovingController
               (if negb v1 && v1beta1 then CertV1beta1 else CertV1) rs), 1)
    end
  else (Ok (NewCSRApprovingController CertV1 rs), 0).
Proof.
  unfold buildCSRController, bind, IsCSRSupported, ret, fail.
  destruct (V1beta1CSRAPICompatibility (gates env)); [|reflexivity].
  destruct (csrDiscovery env 0) as [[[|] [|]]|e]; reflexivity.
Qed.

Lemma startup_eq (m : HubManagerOptions) (env : Env) :
  startup m env =
  match clientErr env with
  | Some e => (Err e, 0)
  | None =>
      match buildCSRController env (csrReconciles m (gates env)) 0 with
      | (Ok c, n) =>
          (Ok {| started := runControllers (gates env); csrController := c |}, n)
      | (Err e, n) => (Err e, n)
      end
  end.
Proof.
  unfold startup, RunControllerManager, clientErr, bind, newForConfig, ret, fail.
  destruct (newKubeClientErr env); [reflexivity|].
  destruct (newClusterClientErr env); [reflexivity|].
  destruct (newWorkClientErr env); [reflexivity|].
  destruct (newAddOnClientErr env); [reflexivity|].
  destruct (buildCSRController env (csrReconciles m (gates env)) 0)
    as [[c|e] n]; reflexivity.
Qed.

Lemma startup_ok_inv (m : HubManagerOptions) (env : Env) (hub : Hub) (n : nat) :
  startup m env = (Ok hub, n) ->
  clientErr env = None /\
  started hub = runControllers (gates env) /\
  buildCSRController env (csrReconciles m (gates env)) 0 = (Ok (csrController hub), n).
Proof.
  rewrite startup_eq. destruct (clientErr env); [discriminate|].
  destruct (buildCSRController env (csrReconciles m (gates env)) 0)
    as [[c|e] n'] eqn:E; intros H; inversion H; subst; auto.
Qed.

Lemma startup_calls_le_1 (m : HubManagerOptions) (env : Env) :
  snd (startup m env) <= 1.
Proof.
  rewrite startup_eq. destruct (clientErr env); simpl; [lia|].
  rewrite buildCSRController_eq.
  destruct (V1beta1CSRAPICompatibility (gates env)); simpl; [|lia].
  destruct (csrDiscovery env 0) as [[v1 v1b]|e]; simpl; lia.
Qed.

Lemma buildCSRController_reconcilers (env : Env) (rs : list Reconciler)
  (c : CSRApprovingController) (n : nat) :
  buildCSRController env rs 0 = (Ok c, n) -> csrReconcilers c = rs.
Proof.
  rewrite buildCSRController_eq.
  destruct (V1beta1CSRAPICompatibility (gates env)).
  - destruct (csrDiscovery env 0) as [[v1 v1b]|e]; intros H;
      inversion H; reflexivity.
  - intros H; inversion H; reflexivity.
Qed.

Lemma memberb_In (s : string) (l : list string) :
  memberb s l = true <-> In s l.
Proof.
  unfold memberb. rewrite existsb_exists. split.
  - intros (x & Hx & E). apply String.eqb_eq in E. now subst.
  - intros H. exists s. split; [assumption|apply String.eqb_refl].
Qed.

(** ** Claims about the approval pipeline built at startup *)

(** C1: the Bootstrap Policy built into the chain uses the operator's
    allow-list [ClusterAutoApprovalUsers]; for every request it approves iff
    the requester is in that list and the profile matches exactly, and for
    every requester outside the list it has no opinion, whatever the other
    fields of the request. *)
Theorem bootstrap_policy_approves_iff_allowed
  (m : HubManagerOptions) (g : FeatureGate) (users : list string) :
  In (CSRBootstrapReconciler users) (csrReconciles m g) ->
  users = ClusterAutoApprovalUsers m /\
  forall (grants : GrantedProfiles) (req : RegistrationRequest),
    (evalReconciler grants (CSRBootstrapReconciler users) req = Approve <->
     In (requester req) users /\ bootstrapProfileMatches req = true) /\
    (~ In (requester req) users ->
     evalReconciler grants (CSRBootstrapReconciler users) req = NoOpinion).
Proof.
  intros Hin. split.
  - unfold csrReconciles in Hin. destruct (ManagedClusterAutoApproval g);
      simpl in Hin; intuition congruence.
  - intros grants req. simpl. unfold bootstrapReconcile. split.
    + rewrite <- memberb_In.
      destruct (memberb (requester req) users), (bootstrapProfileMatches req);
        simpl; intuition congruence.
    + intros Hn. rewrite <- memberb_In in Hn.
      destruct (memberb (requester req) users); [congruence|reflexivity].
Qed.

(** C2 (counterexample): with the compatibility flag disabled and a cluster
    that does not support the Current schema, startup does not fail: it
    builds the Current (v1) approving controller. *)
Lemma current_unsupported_flag_off_no_error :
  match fst (startup bootstrapOpts
               (envOf (gatesOf false false false) (fun _ => Ok (false, true))))
  with
  | Err _ => False
  | Ok hub => csrVersion (csrController hub) = CertV1
  end.
Proof. reflexivity. Qed.

(** C2 (amended): when the legacy-compatibility flag is disabled, startup
    never fails at the CSR controller selection, whatever the cluster
    supports: once the clients are built, no discovery call is made (the
    call count stays 0) and the Current (v1) approving controller is
    built. *)
Theorem compat_flag_off_selects_current
  (m : HubManagerOptions) (env : Env) :
  clientsOk env ->
  V1beta1CSRAPICompatibility (gates env) = false ->
  exists hub, startup m env = (Ok hub, 0) /\
              csrVersion (csrController hub) = CertV1.
Proof.
  intros Hc Hf. rewrite startup_eq, (clientErr_ok env Hc),
    buildCSRController_eq, Hf.
  eexists. split; reflexivity.
Qed.

(** C3: whenever the discovery probe reports the Current schema as
    supported, the Current (v1) controller is selected, whatever it reports
    about the Legacy schema and whatever the feature gates. *)
Theorem current_supported_selects_current
  (m : HubManagerOptions) (env : Env) (v1beta1 : bool) :
  clientsOk env ->
  csrDiscovery env 0 = Ok (true, v1beta1) ->
  exists hub n, startup m env = (Ok hub, n) /\
                csrVersion (csrController hub) = CertV1.
Proof.
  intros Hc Hp. rewrite startup_eq, (clientErr_ok env Hc), buildCSRController_eq.
  destruct (V1beta1CSRAPICompatibility (gates env)).
  - rewrite Hp. eexists _, _. split; reflexivity.
  - eexists _, _. split; reflexivity.
Qed.

(** C4: the reconciler chain of the approving controller is fixed when the
    pipeline is built: the Renewal reconciler first, then the Bootstrap
    reconciler iff the auto-approval gate is enabled; evaluating a request
    runs exactly that list. *)
Theorem policy_chain_fixed_at_startup
  (m : HubManagerOptions) (env : Env) (hub : Hub) (n : nat) :
  startup m env = (Ok hub, n) ->
  csrReconcilers (csrController hub) =
    CSRRenewalReconciler ::
      (if ManagedClusterAutoApproval (gates env)
       then [CSRBootstrapReconciler (ClusterAutoApprovalUsers m)] else []) /\
  forall grants req,
    runChain grants (csrReconcilers (csrController hub)) req =
      match renewalReconcile grants req with
      | NoOpinion =>
          if ManagedClusterAutoApproval (gates env)
          then bootstrapReconcile (ClusterAutoApprovalUsers m) req
          else NoOpinion
      | o => o
      end.
Proof.
  intros H. apply startup_ok_inv in H as (_ & _ & Hb).
  apply buildCSRController_reconcilers in Hb. rewrite Hb.
  unfold csrReconciles.
  destruct (ManagedClusterAutoApproval (gates env)); split; try reflexivity;
    intros grants req; simpl;
    destruct (renewalReconcile grants req); try reflexivity;
    destruct (bootstrapReconcile (ClusterAutoApprovalUsers m) req); reflexivity.
Qed.

(** C5: a discovery error is fatal: startup returns it wrapped as
    "failed CSR api discovery: ...", after exactly one discovery call. *)
Theorem discovery_error_is_fatal
  (m : HubManagerOptions) (env : Env) (e : error) :
  clientsOk env ->
  V1beta1CSRAPICompatibility (gates env) = true ->
  csrDiscovery env 0 = Err e ->
  startup m env = (Err (Wrapf e "failed CSR api discovery"), 1).
Proof.
  intros Hc Hf Hp. rewrite startup_eq, (clientErr_ok env Hc),
    buildCSRController_eq, Hf, Hp. reflexivity.
Qed.

(** C6: a startup makes at most one discovery call, and a successful one
    starts exactly one CSR approving controller, of exactly one version. *)
Theorem one_schema_variant_per_process (m : HubManagerOptions) (env : Env) :
  snd (startup m env) <= 1 /\
  forall hub n, startup m env = (Ok hub, n) ->
    length (filter (fun cw => ControllerName_eqb (fst cw) CSRController)
                   (started hub)) = 1.
Proof.
  split; [apply startup_calls_le_1|].
  intros hub n H. apply startup_ok_inv in H as (_ & Hs & _). rewrite Hs.
  unfold runControllers. destruct (DefaultClusterSet (gates env)); reflexivity.
Qed.

(** C9: with the compatibility flag disabled no discovery call is made and
    the Current (v1) controller is built, whatever the discovery would
    answer. *)
Theorem compat_flag_off_no_probe (m : HubManagerOptions) (env : Env) :
  clientsOk env ->
  V1beta1CSRAPICompatibility (gates env) = false ->
  exists hub, startup m env = (Ok hub, 0) /\
              csrVersion (csrController hub) = CertV1 /\
              csrReconcilers (csrController hub) = csrReconciles m (gates env).
Proof.
  intros Hc Hf. rewrite startup_eq, (clientErr_ok env Hc),
    buildCSRController_eq, Hf.
  eexists. split; [reflexivity|split; reflexivity].
Qed.

(** ** Claims about request decisions *)

Lemma reconcileRequest_terminal (g : GrantedProfiles) (rs : list Reconciler)
  (req : RegistrationRequest) :
  isPending (decision req) = false -> reconcileRequest g rs req = (req, None).
Proof.
  unfold reconcileRequest. destruct (decision req); easy.
Qed.

Lemma reconcileTrace_terminal (rs : list Reconciler) (gs : list GrantedProfiles)
  (req : RegistrationRequest) :
  isPending (decision req) = false -> reconcileTrace rs gs req = (req, 0, 0).
Proof.
  intros Ht. induction gs as [|g gs IH]; [reflexivity|].
  simpl. rewrite (reconcileRequest_terminal g rs req Ht), IH, Ht. reflexivity.
Qed.

Lemma reconcileRequest_cases (g : GrantedProfiles) (rs : list Reconciler)
  (req req' : RegistrationRequest) (w : option DecisionState) :
  reconcileRequest g rs req = (req', w) ->
  match w with
  | None => req' = req
  | Some _ => isPending (decision req) = true /\
              isPending (decision req') = false
  end.
Proof.
  unfold reconcileRequest.
  destruct (decision req) eqn:D;
    [destruct (runChain g rs req)| |]; intros H; inversion H; subst;
    simpl; try rewrite D; auto.
Qed.

(** C7: over any sequence of reconciliations of a request, the decision
    leaves Pending at most once and at most one write is issued; on a
    request already Approved or Denied a reconciliation issues no write
    and leaves the request unchanged. *)
Theorem decision_leaves_pending_at_most_once
  (rs : list Reconciler) (gs : list GrantedProfiles) (req : RegistrationRequest) :
  snd (fst (reconcileTrace rs gs req)) <= 1 /\
  snd (reconcileTrace rs gs req) <= 1 /\
  (isPending (decision req) = false ->
   snd (fst (reconcileTrace rs gs req)) = 0 /\
   forall g, reconcileRequest g rs req = (req, None)).
Proof.
  revert req. induction gs as [|g gs IH]; intros req.
  - simpl. split; [lia|split; [lia|]].
    intros Ht. split; [reflexivity|]. intros g.
    now apply reconcileRequest_terminal.
  - assert (Hterm : isPending (decision req) = false ->
                    forall g0, reconcileRequest g0 rs req = (req, None))
      by (intros Ht g0; now apply reconcileRequest_terminal).
    simpl. destruct (reconcileRequest g rs req) as [req' w] eqn:E.
    apply reconcileRequest_cases in E as Hc.
    destruct w as [d|].
    + destruct Hc as [Hp Ht'].
      rewrite (reconcileTrace_terminal rs gs req' Ht'), Hp, Ht'. simpl.
      split; [lia|split; [lia|]]. congruence.
    + subst req'. destruct (IH req) as (H1 & H2 & H3).
      destruct (reconcileTrace rs gs req) as [[fin wr] lv]. simpl in *.
      destruct (isPending (decision req)) eqn:P; simpl.
      * split; [lia|split; [lia|]]. discriminate.
      * split; [lia|split; [lia|]]. intros _.
        split; [apply H3; reflexivity|exact (Hterm eq_refl)].
Qed.

(** ** Claims about the liveness state machine *)

Lemma leaseStep_unreachable_iff (T age : nat) (c : SpokeCluster) :
  availability c <> Unreachable ->
  (availability (leaseStep T age c) = Unreachable <-> T < age).
Proof.
  intros Hc. unfold leaseStep. destruct (Nat.ltb T age) eqn:L.
  - apply Nat.ltb_lt in L.
    destruct (availability c) eqn:A; simpl; intuition congruence.
  - apply Nat.ltb_ge in L.
    destruct (availability c) eqn:A; simpl; split; intros; try congruence; lia.
Qed.

(** C8: with R = 60 s and T = 5 R = 300 s, the ages 30, 90, 150, 210, 270,
    330 s give Available five times and then Unreachable, from any cluster
    that is not already Unreachable; and in one evaluation such a cluster
    becomes Unreachable exactly when the age exceeds T. *)
Theorem lease_sample_sequence (c : SpokeCluster) :
  availability c <> Unreachable ->
  leaseTrace (staleThreshold 60) [30; 90; 150; 210; 270; 330] c =
    [Available; Available; Available; Available; Available; Unreachable] /\
  forall age, (availability (leaseStep (staleThreshold 60) age c) = Unreachable
               <-> 300 < age).
Proof.
  intros Hc. split.
  - destruct c as [[| |] ts]; [reflexivity|reflexivity|now destruct Hc].
  - intros age. apply leaseStep_unreachable_iff, Hc.
Qed.

(** ** Claims about the controllers' workers *)

Lemma poolReachable_inflight_le (w : nat) (p : Pool) :
  poolReachable w p -> length (inflight p) <= w.
Proof.
  induction 1 as [|p p' Hr IH Hs]; simpl; [lia|].
  destruct Hs as [p0 k|p0 k q Hq Hlt Hnin|p0 k Hin]; simpl; try lia.
  pose proof (filter_length_le (fun x => negb (String.eqb k x)) (inflight p0)).
  lia.
Qed.

(** C10: every controller started by a successful startup runs with one
    worker, so at any time at most one of its keys is being processed. *)
Theorem every_controller_single_worker
  (m : HubManagerOptions) (env : Env) (hub : Hub) (n : nat) :
  startup m env = (Ok hub, n) ->
  forall c w, In (c, w) (started hub) ->
    w = 1 /\ forall p, poolReachable w p -> length (inflight p) <= 1.
Proof.
  intros H c w Hin. apply startup_ok_inv in H as (_ & Hs & _).
  rewrite Hs in Hin.
  assert (w = 1) as ->.
  { unfold runControllers in Hin. apply in_app_or in Hin as [Hin|Hin].
    - simpl in Hin. intuition congruence.
    - destruct (DefaultClusterSet (gates env)); simpl in Hin;
        intuition congruence. }
  split; [reflexivity|]. intros p Hp. now apply poolReachable_inflight_le.
Qed.

(** ** Witnesses: the theorems applied at concrete startups *)

Definition envLegacyOnly (g : FeatureGate) : Env :=
  envOf g (fun _ => Ok (false, true)).

Definition envBoth (g : FeatureGate) : Env :=
  envOf g (fun _ => Ok (true, true)).

Lemma bootstrap_policy_approves_iff_allowed_witness :
  In (CSRBootstrapReconciler ["bootstrap-sa"])
     (csrReconciles bootstrapOpts (gatesOf true false false)) /\
  (evalReconciler [] (CSRBootstrapReconciler ["bootstrap-sa"])
     (spokeRequest "bootstrap-sa") = Approve <->
   In "bootstrap-sa" ["bootstrap-sa"] /\
   bootstrapProfileMatches (spokeRequest "bootstrap-sa") = true).
Proof.
  assert (Hin : In (CSRBootstrapReconciler ["bootstrap-sa"])
                   (csrReconciles bootstrapOpts (gatesOf true false false)))
    by (simpl; right; left; reflexivity).
  split; [exact Hin|].
  exact (proj1 (proj2 (bootstrap_policy_approves_iff_allowed bootstrapOpts
    (gatesOf true false false) ["bootstrap-sa"] Hin) [] (spokeRequest "bootstrap-sa"))).
Defined.

Lemma compat_flag_off_selects_current_witness :
  clientsOk (envLegacyOnly (gatesOf true false false)) /\
  V1beta1CSRAPICompatibility (gates (envLegacyOnly (gatesOf true false false))) = false /\
  exists hub, startup bootstrapOpts (envLegacyOnly (gatesOf true false false))
                = (Ok hub, 0) /\ csrVersion (csrController hub) = CertV1.
Proof.
  assert (Hc : clientsOk (envLegacyOnly (gatesOf true false false)))
    by (unfold clientsOk; simpl; repeat split).
  split; [exact Hc|split; [reflexivity|]].
  apply (compat_flag_off_selects_current bootstrapOpts _ Hc). reflexivity.
Defined.

Lemma current_supported_selects_current_witness :
  clientsOk (envBoth (gatesOf true true false)) /\
  csrDiscovery (envBoth (gatesOf true true false)) 0 = Ok (true, true) /\
  exists hub n, startup bootstrapOpts (envBoth (gatesOf true true false))
                  = (Ok hub, n) /\ csrVersion (csrController hub) = CertV1.
Proof.
  assert (Hc : clientsOk (envBoth (gatesOf true true false)))
    by (unfold clientsOk; simpl; repeat split).
  split; [exact Hc|split; [reflexivity|]].
  apply (current_supported_selects_current bootstrapOpts _ true Hc). reflexivity.
Defined.

Lemma policy_chain_fixed_at_startup_witness :
  csrReconcilers (csrController
    {| started := runControllers (gatesOf true true false);
       csrController := NewCSRApprovingController CertV1beta1
         [CSRRenewalReconciler; CSRBootstrapReconciler ["bootstrap-sa"]] |}) =
  [CSRRenewalReconciler; CSRBootstrapReconciler ["bootstrap-sa"]].
Proof.
  exact (proj1 (policy_chain_fixed_at_startup bootstrapOpts
    (envLegacyOnly (gatesOf true true false)) _ 1 startup_legacy_only)).
Defined.

Lemma discovery_error_is_fatal_witness :
  startup bootstrapOpts (envOf (gatesOf false true false) (fun _ => Err "timeout"))
  = (Err "failed CSR api discovery: timeout", 1).
Proof.
  apply (discovery_error_is_fatal bootstrapOpts _ "timeout").
  - unfold clientsOk; simpl; repeat split.
  - reflexivity.
  - reflexivity.
Defined.

Lemma one_schema_variant_per_process_witness :
  snd (startup bootstrapOpts (envLegacyOnly (gatesOf true true true))) <= 1 /\
  length (filter (fun cw => ControllerName_eqb (fst cw) CSRController)
    (started {| started := runControllers (gatesOf true true false);
                csrController := NewCSRApprovingController CertV1beta1
                  [CSRRenewalReconciler; CSRBootstrapReconciler ["bootstrap-sa"]] |}))
  = 1.
Proof.
  split.
  - exact (proj1 (one_schema_variant_per_process bootstrapOpts
                    (envLegacyOnly (gatesOf true true true)))).
  - exact (proj2 (one_schema_variant_per_process bootstrapOpts
                    (envLegacyOnly (gatesOf true true false))) _ 1
             startup_legacy_only).
Defined.

Lemma decision_leaves_pending_at_most_once_witness :
  reconcileRequest [] [CSRRenewalReconciler]
    (setDecision (spokeRequest "bootstrap-sa") Approved)
  = (setDecision (spokeRequest "bootstrap-sa") Approved, None).
Proof.
  exact (proj2 (proj2 (proj2 (decision_leaves_pending_at_most_once
    [CSRRenewalReconciler] [] (setDecision (spokeRequest "bootstrap-sa") Approved)))
    eq_refl) []).
Defined.

Lemma lease_sample_sequence_witness :
  availability {| availability := Unknown; taints := [] |} <> Unreachable /\
  leaseTrace (staleThreshold 60) [30; 90; 150; 210; 270; 330]
    {| availability := Unknown; taints := [] |} =
  [Available; Available; Available; Available; Available; Unreachable].
Proof.
  assert (Hc : availability {| availability := Unknown; taints := [] |}
               <> Unreachable) by (simpl; discriminate).
  split; [exact Hc|].
  exact (proj1 (lease_sample_sequence _ Hc)).
Defined.

Lemma compat_flag_off_no_probe_witness :
  clientsOk (envLegacyOnly (gatesOf false false true)) /\
  V1beta1CSRAPICompatibility (gates (envLegacyOnly (gatesOf false false true))) = false /\
  exists hub, startup bootstrapOpts (envLegacyOnly (gatesOf false false true))
                = (Ok hub, 0) /\
              csrVersion (csrController hub) = CertV1 /\
              csrReconcilers (csrController hub) =
                csrReconciles bootstrapOpts (gatesOf false false true).
Proof.
  assert (Hc : clientsOk (envLegacyOnly (gatesOf false false true)))
    by (unfold clientsOk; simpl; repeat split).
  split; [exact Hc|split; [reflexivity|]].
  apply (compat_flag_off_no_probe bootstrapOpts _ Hc). reflexivity.
Defined.

Lemma every_controller_single_worker_witness :
  In (CSRController, 1) (runControllers (gatesOf true true false)) /\
  (1 = 1 /\ forall p, poolReachable 1 p -> length (inflight p) <= 1).
Proof.
  assert (Hin : In (CSRController, 1) (runControllers (gatesOf true true false)))
    by (simpl; right; right; left; reflexivity).
  split; [exact Hin|].
  exact (every_controller_single_worker bootstrapOpts
    (envLegacyOnly (gatesOf true true false)) _ 1 startup_legacy_only
    CSRController 1 Hin).
Defined.

(** ** Further properties of the startup *)

(** A failing client constructor ends the startup with its own error,
    unwrapped, before any discovery call. *)
Theorem startup_client_error (m : HubManagerOptions) (env : Env) (e : error) :
  clientErr env = Some e -> startup m env = (Err e, 0).
Proof. intros H. rewrite startup_eq, H. reflexivity. Qed.

(** Every error of the startup is either the error of the first failing
    client constructor, or the error of the one discovery call wrapped as
    "failed CSR api discovery: ...", made only with the compatibility gate
    enabled. *)
Theorem startup_error_origin (m : HubManagerOptions) (env : Env) (e : error) :
  fst (startup m env) = Err e ->
  clientErr env = Some e \/
  (clientErr env = None /\ V1beta1CSRAPICompatibility (gates env) = true /\
   exists e', csrDiscovery env 0 = Err e' /\
              e = Wrapf e' "failed CSR api discovery").
Proof.
  rewrite startup_eq. destruct (clientErr env) as [e0|] eqn:C; simpl.
  - intros H. left. congruence.
  - rewrite buildCSRController_eq.
    destruct (V1beta1CSRAPICompatibility (gates env)); [|discriminate].
    destruct (csrDiscovery env 0) as [[v1 v1b]|e'] eqn:P; simpl;
      [discriminate|]. intros H. inversion H. right. eauto.
Qed.

(** The discovery helper is called exactly once when the clients are built
    and the compatibility gate is enabled, and never otherwise. *)
Theorem startup_discovery_calls (m : HubManagerOptions) (env : Env) :
  snd (startup m env) =
  match clientErr env with
  | Some _ => 0
  | None => if V1beta1CSRAPICompatibility (gates env) then 1 else 0
  end.
Proof.
  rewrite startup_eq. destruct (clientErr env); [reflexivity|].
  rewrite buildCSRController_eq.
  destruct (V1beta1CSRAPICompatibility (gates env)); [|reflexivity].
  destruct (csrDiscovery env 0) as [[v1 v1b]|e]; reflexivity.
Qed.

(** The Legacy (v1beta1) controller is built exactly when the clients are
    built, the compatibility gate is enabled and the discovery reports v1
    unsupported and v1beta1 supported. *)
Theorem legacy_selected_iff (m : HubManagerOptions) (env : Env) :
  (exists hub n, startup m env = (Ok hub, n) /\
                 csrVersion (csrController hub) = CertV1beta1) <->
  clientErr env = None /\ V1beta1CSRAPICompatibility (gates env) = true /\
  csrDiscovery env 0 = Ok (false, true).
Proof.
  split.
  - intros (hub & n & H & Hv). rewrite startup_eq in H.
    destruct (clientErr env); [discriminate|].
    rewrite buildCSRController_eq in H.
    destruct (V1beta1CSRAPICompatibility (gates env));
      [|inversion H; subst; discriminate].
    destruct (csrDiscovery env 0) as [[[|] [|]]|e]; inversion H; subst;
      simpl in Hv; try discriminate; auto.
  - intros (Hc & Hg & Hp).
    rewrite startup_eq, Hc, buildCSRController_eq, Hg, Hp.
    eexists _, _. split; reflexivity.
Qed.

(** With the compatibility gate enabled and neither CSR API reported as
    supported, the startup does not fail: it falls back to the v1
    controller after its one discovery call. *)
Theorem compat_on_nothing_supported_falls_back
  (m : HubManagerOptions) (env : Env) :
  clientsOk env ->
  V1beta1CSRAPICompatibility (gates env) = true ->
  csrDiscovery env 0 = Ok (false, false) ->
  exists hub, startup m env = (Ok hub, 1) /\
              csrVersion (csrController hub) = CertV1.
Proof.
  intros Hc Hg Hp.
  rewrite startup_eq, (clientErr_ok env Hc), buildCSRController_eq, Hg, Hp.
  eexists. split; reflexivity.
Qed.

(** The default and global cluster-set controllers are started iff the
    DefaultClusterSet gate is enabled: twelve controllers then, ten
    otherwise. *)
Theorem default_clusterset_controllers
  (m : HubManagerOptions) (env : Env) (hub : Hub) (n : nat) :
  startup m env = (Ok hub, n) ->
  (In (DefaultManagedClusterSetController, 1) (started hub) <->
   DefaultClusterSet (gates env) = true) /\
  (In (GlobalManagedClusterSetController, 1) (started hub) <->
   DefaultClusterSet (gates env) = true) /\
  length (started hub) = if DefaultClusterSet (gates env) then 12 else 10.
Proof.
  intros H. apply startup_ok_inv in H as (_ & Hs & _). rewrite Hs.
  unfold runControllers.
  destruct (DefaultClusterSet (gates env)); simpl;
    repeat split; intros; intuition congruence.
Qed.

(** No controller is started twice. *)
Theorem started_controllers_nodup
  (m : HubManagerOptions) (env : Env) (hub : Hub) (n : nat) :
  startup m env = (Ok hub, n) -> NoDup (map fst (started hub)).
Proof.
  intros H. apply startup_ok_inv in H as (_ & Hs & _). rewrite Hs.
  unfold runControllers.
  destruct (DefaultClusterSet (gates env)); simpl;
    repeat (constructor; [simpl; intuition discriminate|]); constructor.
Qed.

(** The answer of the discovery only selects the CSR API version: two
    successful startups that differ only in that answer start the same
    controllers with the same reconciler chain. *)
Theorem discovery_answer_only_selects_version
  (m : HubManagerOptions) (env : Env) (p : nat -> result (bool * bool))
  (h h' : Hub) (n n' : nat) :
  startup m env = (Ok h, n) ->
  startup m (withDiscovery env p) = (Ok h', n') ->
  started h = started h' /\
  csrReconcilers (csrController h) = csrReconcilers (csrController h').
Proof.
  intros H H'.
  apply startup_ok_inv in H as (_ & Hs & Hb).
  apply startup_ok_inv in H' as (_ & Hs' & Hb').
  apply buildCSRController_reconcilers in Hb, Hb'.
  simpl in Hs', Hb'. split; congruence.
Qed.

(** With the auto-approval gate disabled the allow-list option plays no
    part in the startup. *)
Theorem auto_approval_off_ignores_users
  (m m' : HubManagerOptions) (env : Env) :
  ManagedClusterAutoApproval (gates env) = false ->
  startup m env = startup m' env.
Proof.
  intros Hg. rewrite !startup_eq. unfold csrReconciles. rewrite Hg.
  reflexivity.
Qed.

(** With the options of [NewHubManagerOptions] (an empty allow-list), the
    chain decides every request as the Renewal policy alone does, whether
    or not the auto-approval gate is enabled. *)
Theorem default_options_chain_is_renewal
  (g : FeatureGate) (grants : GrantedProfiles) (req : RegistrationRequest) :
  runChain grants (csrReconciles NewHubManagerOptions g) req =
  renewalReconcile grants req.
Proof.
  unfold csrReconciles. destruct (ManagedClusterAutoApproval g); simpl;
    destruct (renewalReconcile grants req); reflexivity.
Qed.

(** The client configuration never has a zero QPS: a zero QPS (of either
    sign) becomes 100 with a burst of 200, any other configuration is kept
    as it is. *)
Theorem defaultKubeConfig_qps_nonzero (c : RestConfig) :
  floatIsZero (QPS (defaultKubeConfig c)) = false /\
  (floatIsZero (QPS c) = false -> defaultKubeConfig c = c) /\
  (floatIsZero (QPS c) = true ->
   defaultKubeConfig c = {| QPS := float100; Burst := 200%Z |}).
Proof.
  unfold defaultKubeConfig. destruct (floatIsZero (QPS c)) eqn:Z0.
  - repeat split; easy.
  - repeat split; easy.
Qed.

(** ** Witnesses of the further properties *)

Definition envKubeErr : Env :=
  {| gates := gatesOf true true true;
     newKubeClientErr := Some "invalid kubeconfig";
     newClusterClientErr := Some "invalid cluster config";
     newWorkClientErr := None; newAddOnClientErr := None;
     csrDiscovery := fun _ => Ok (true, true) |}.

Lemma startup_client_error_witness :
  clientErr envKubeErr = Some "invalid kubeconfig" /\
  startup bootstrapOpts envKubeErr = (Err "invalid kubeconfig", 0).
Proof.
  assert (H : clientErr envKubeErr = Some "invalid kubeconfig") by reflexivity.
  split; [exact H|]. exact (startup_client_error bootstrapOpts _ _ H).
Defined.

Lemma startup_error_origin_witness :
  fst (startup bootstrapOpts
         (envOf (gatesOf false true false) (fun _ => Err "timeout")))
    = Err "failed CSR api discovery: timeout" /\
  (clientErr (envOf (gatesOf false true false) (fun _ => Err "timeout"))
     = Some "failed CSR api discovery: timeout" \/
   (clientErr (envOf (gatesOf false true false) (fun _ => Err "timeout")) = None /\
    V1beta1CSRAPICompatibility
      (gates (envOf (gatesOf false true false) (fun _ => Err "timeout"))) = true /\
    exists e', csrDiscovery (envOf (gatesOf false true false)
                               (fun _ => Err "timeout")) 0 = Err e' /\
               "failed CSR api discovery: timeout" =
                 Wrapf e' "failed CSR api discovery")).
Proof.
  assert (H : fst (startup bootstrapOpts
                (envOf (gatesOf false true false) (fun _ => Err "timeout")))
              = Err "failed CSR api discovery: timeout") by reflexivity.
  split; [exact H|]. exact (startup_error_origin bootstrapOpts _ _ H).
Defined.

Lemma compat_on_nothing_supported_falls_back_witness :
  exists hub, startup NewHubManagerOptions
                (envOf (gatesOf false true false) (fun _ => Ok (false, false)))
              = (Ok hub, 1) /\ csrVersion (csrController hub) = CertV1.
Proof.
  apply (compat_on_nothing_supported_falls_back NewHubManagerOptions _).
  - unfold clientsOk; simpl; repeat split.
  - reflexivity.
  - reflexivity.
Defined.

Lemma default_clusterset_controllers_witness :
  length (started {| started := runControllers (gatesOf true true false);
                     csrController := NewCSRApprovingController CertV1beta1
                       [CSRRenewalReconciler;
                        CSRBootstrapReconciler ["bootstrap-sa"]] |}) = 10.
Proof.
  exact (proj2 (proj2 (default_clusterset_controllers bootstrapOpts
    (envLegacyOnly (gatesOf true true false)) _ 1 startup_legacy_only))).
Defined.

Lemma started_controllers_nodup_witness :
  NoDup (map fst (runControllers (gatesOf true true false))).
Proof.
  exact (started_controllers_nodup bootstrapOpts
    (envLegacyOnly (gatesOf true true false)) _ 1 startup_legacy_only).
Defined.

Lemma discovery_answer_only_selects_version_witness :
  started {| started := runControllers (gatesOf true true false);
             csrController := NewCSRApprovingController CertV1beta1
               [CSRRenewalReconciler; CSRBootstrapReconciler ["bootstrap-sa"]] |} =
  runControllers (gatesOf true true false).
Proof.
  assert (H' : startup bootstrapOpts
                 (withDiscovery (envLegacyOnly (gatesOf true true false))
                                (fun _ => Ok (true, true)))
               = (Ok {| started := runControllers (gatesOf true true false);
                        csrController := NewCSRApprovingController CertV1
                          [CSRRenewalReconciler;
                           CSRBootstrapReconciler ["bootstrap-sa"]] |}, 1))
    by reflexivity.
  exact (proj1 (discovery_answer_only_selects_version bootstrapOpts
    (envLegacyOnly (gatesOf true true false)) (fun _ => Ok (true, true))
    _ _ 1 1 startup_legacy_only H')).
Defined.

Lemma auto_approval_off_ignores_users_witness :
  startup bootstrapOpts (envLegacyOnly (gatesOf false true true)) =
  startup NewHubManagerOptions (envLegacyOnly (gatesOf false true true)).
Proof.
  apply auto_approval_off_ignores_users. reflexivity.
Defined.

Lemma defaultKubeConfig_qps_nonzero_witness :
  floatIsZero (QPS {| QPS := S754_zero true; Burst := 0%Z |}) = true /\
  defaultKubeConfig {| QPS := S754_zero true; Burst := 0%Z |} =
    {| QPS := float100; Burst := 200%Z |}.
Proof.
  assert (H : floatIsZero (QPS {| QPS := S754_zero true; Burst := 0%Z |}) = true)
    by reflexivity.
  split; [exact H|].
  exact (proj2 (proj2 (defaultKubeConfig_qps_nonzero _)) H).
Defined.
